(** * django_fsm: the transition tag, the ONE_OF selector and the field's
      [change_state] driver, embedded from [fsm_transition.py] and
      [fsm_field.py]. *)

From stdpp Require Import gmap strings list fin_maps.

Local Open Scope string_scope.

(** ** Python values *)

(** The Python objects that travel through the engine as states, method
    results and constructor arguments.  Containers hold state names.  On
    this universe Python's [==] is Leibniz equality: a list never equals a
    tuple, sets compare by their elements. *)
Inductive value : Type :=
| VNone
| VStr (s : string)
| VInt (n : Z)
| VList (xs : list string)
| VTuple (xs : list string)
| VSet (xs : gset string).

#[global] Instance value_eq_dec : EqDecision value.
Proof. solve_decision. Defined.

(** [x in t] for a tuple [t]. *)
Definition py_in (x : value) (t : list value) : bool := bool_decide (x ∈ t).

(** [bool(x)], as tested by [if x:]. *)
Definition py_truthy (x : value) : bool :=
  match x with
  | VNone => false
  | VStr s => negb (String.eqb s "")
  | VInt n => negb (Z.eqb n 0)
  | VList xs | VTuple xs => negb (bool_decide (xs = []))
  | VSet xs => negb (bool_decide (xs = ∅))
  end.

(** [hash(x)] succeeds: lists and sets are unhashable. *)
Definition hashable (x : value) : bool :=
  match x with
  | VList _ | VSet _ => false
  | _ => true
  end.

(** ** Exceptions and fallible results *)

(** Both modules declare a class [TransitionNotAllowed]; they are distinct
    classes.  [UserException] stands for any other [Exception] a decorated
    method raises. *)
Inductive exn : Type :=
| ValueError
| AssertionError
| AttributeError
| TypeError
| TransitionNotAllowed          (* fsm_field.TransitionNotAllowed *)
| TransitionNotAllowed_tag      (* fsm_transition.TransitionNotAllowed *)
| UserException (tag : string).

#[global] Instance exn_eq_dec : EqDecision exn.
Proof. solve_decision. Defined.

Inductive result (A : Type) : Type :=
| Ok (a : A)
| Raise (e : exn).
Arguments Ok {A} a.
Arguments Raise {A} e.

Definition rbind {A B} (r : result A) (k : A -> result B) : result B :=
  match r with
  | Ok a => k a
  | Raise e => Raise e
  end.

Notation "'let?' x ':=' r 'in' k" := (rbind r (fun x => k))
  (at level 10, x name, r at level 100, k at level 200).

(** A model instance is its attribute dictionary. *)
Abbreviation instance := (gmap string value).

(** ** Dictionaries keyed by state names *)

(** [d.get(k, None)] on a dict whose keys are strings: a key of another
    hashable type is simply absent, an unhashable key raises. *)
Definition dict_get {V} (d : gmap string V) (k : value) : result (option V) :=
  if hashable k then
    match k with
    | VStr s => Ok (d !! s)
    | _ => Ok None
    end
  else Raise TypeError.

(** [k in d]. *)
Definition dict_contains {V} (d : gmap string V) (k : value) : result bool :=
  let? o := dict_get d k in Ok (bool_decide (is_Some o)).

(** ** fsm_field.ONE_OF *)

Module ONE_OF.

(** [allowed_states = None]: [__init__] returned without ever assigning
    the attribute. *)
Record t : Type := Build { allowed_states : option (list value) }.

Definition init (args : list value) : result t :=
  match args with
  | [] => Raise ValueError
  | VStr _ :: _ => Ok (Build (Some args))
  | VList xs :: _ | VTuple xs :: _ => Ok (Build (Some (VStr <$> xs)))
  | _ :: _ => Ok (Build None)
  end.

Definition get_state (self : t) (res : value) : result value :=
  match allowed_states self with
  | None => Raise AttributeError
  | Some allowed =>
      if negb (py_in res allowed) then Raise TransitionNotAllowed
      else Ok res
  end.

End ONE_OF.

(** ** fsm_field.FSMField: the state attribute *)

Module FSMField.

Record t : Type := Build { name : string; readonly : bool }.

Definition private_name (self : t) : string := "__fsm_" ++ name self.

(** [getattr(model, f'__fsm_{self.name}')] *)
Definition get_state (self : t) (model : instance) : result value :=
  match model !! private_name self with
  | Some v => Ok v
  | None => Raise AttributeError
  end.

(** [setattr(model, f'__fsm_{self.name}', state)] *)
Definition set_state (self : t) (model : instance) (state : value)
  : instance :=
  <[private_name self := state]> model.

End FSMField.

(** ** fsm_transition.FSMTag *)

(** What [dest] may be: [None], a state, or a [ONE_OF] object. *)
Inductive destination : Type :=
| DestValue (v : value)
| DestOneOf (o : ONE_OF.t).

(** The tag's [field]: the field's name until the class is prepared, the
    field object afterwards. *)
Inductive field_ref : Type :=
| FieldName (s : string)
| FieldObj (f : FSMField.t).

(** The dictionary stored per source by [add_transition]. *)
Record Transition : Type := {
  tr_source : string;
  tr_destination : destination;
  tr_on_error : value;
  tr_conditions : option (list (instance -> bool));
  tr_custom : gmap string value
}.

(** [d.target] for one of these dictionaries.  A [dict] has no attribute
    [target] (its entries are reached by subscript), so the attribute
    lookup raises whatever the dictionary holds. *)
Definition Transition_target (d : Transition) : result value :=
  Raise AttributeError.

Module FSMTag.

Record t : Type := Build {
  field : field_ref;
  transitions : gmap string Transition
}.

Definition init (fld : field_ref) : t := Build fld ∅.

Definition get_transition (self : t) (source : value)
  : result (option Transition) :=
  let? transition := dict_get (transitions self) source in
  let transition :=
    match transition with
    | None => transitions self !! "*"
    | Some _ => transition
    end in
  let transition :=
    match transition with
    | None => transitions self !! "+"
    | Some _ => transition
    end in
  Ok transition.

Definition add_transition (self : t) (source : string)
    (dest : destination) (on_error : value)
    (conditions : option (list (instance -> bool)))
    (custom : gmap string value) : result t :=
  if bool_decide (is_Some (transitions self !! source))
  then Raise AssertionError
  else Ok (Build (field self)
             (<[source := {| tr_source := source;
                             tr_destination := dest;
                             tr_on_error := on_error;
                             tr_conditions := conditions;
                             tr_custom := custom |}]> (transitions self))).

Definition has_transition (self : t) (state : value) : result bool :=
  let? exact := dict_contains (transitions self) state in
  if exact then Ok true
  else if bool_decide (is_Some (transitions self !! "*")) then Ok true
  else
    match transitions self !! "+" with
    | Some plus =>
        let? target := Transition_target plus in
        if negb (bool_decide (target = state)) then Ok true else Ok false
    | None => Ok false
    end.

Definition conditions_met (self : t) (method_owner : instance)
    (state : value) : result bool :=
  let? transition := get_transition self state in
  match transition with
  | None => Ok false
  | Some tr =>
      match tr_conditions tr with
      | None => Ok true
      | Some conds =>
          Ok (forallb (fun condition => condition method_owner) conds)
      end
  end.

Definition next_state (self : t) (current_state : value)
  : result destination :=
  let? transition := get_transition self current_state in
  match transition with
  | None => Raise TransitionNotAllowed_tag
  | Some tr => Ok (tr_destination tr)
  end.

Definition exception_state (self : t) (current_state : value)
  : result value :=
  let? transition := get_transition self current_state in
  match transition with
  | None => Raise TransitionNotAllowed_tag
  | Some tr => Ok (tr_on_error tr)
  end.

End FSMTag.

(** ** fsm_transition.transition: the decorator *)

(** A decorated method: its [__name__], the [_fsm_tag] attached by the
    decorator, and its body.  The body receives the owner and the call
    arguments; it may update the owner's attributes and either returns a
    value or raises. *)
Record call_args : Type := {
  args : list value;
  kwargs : gmap string value
}.

Record Method : Type := {
  __name__ : string;
  _fsm_tag : FSMTag.t;
  body : instance -> call_args -> instance * result value
}.

(** The [src] argument: one specifier, or a list/tuple/set of them (a set
    is iterated in some order and holds no duplicates). *)
Inductive src_arg : Type :=
| SrcOne (s : string)
| SrcSeq (states : list string).

(** [for state in src: method._fsm_tag.add_transition(state, ...)] *)
Fixpoint add_each (tag : FSMTag.t) (states : list string)
    (dest : destination) (on_error : value)
    (conditions : option (list (instance -> bool)))
    (custom : gmap string value) : result FSMTag.t :=
  match states with
  | [] => Ok tag
  | state :: rest =>
      let? tag' :=
        FSMTag.add_transition tag state dest on_error conditions custom in
      add_each tag' rest dest on_error conditions custom
  end.

(** [transition(src, dest, field, on_error, conditions, custom)(method)]:
    the tagged method, or the exception raised while the tag is built. *)
Definition transition (src : src_arg) (dest : destination)
    (fld : field_ref) (on_error : value)
    (conditions : option (list (instance -> bool)))
    (custom : gmap string value)
    (method_name : string)
    (method_body : instance -> call_args -> instance * result value)
  : result Method :=
  let fsm_tag := FSMTag.init fld in
  let? fsm_tag :=
    match src with
    | SrcSeq states => add_each fsm_tag states dest on_error conditions custom
    | SrcOne s =>
        FSMTag.add_transition fsm_tag s dest on_error conditions custom
    end in
  Ok {| __name__ := method_name; _fsm_tag := fsm_tag; body := method_body |}.

(** ** fsm_field.FSMField.change_state *)

(** The keyword arguments of the [transition] signal.  [sender] and
    [instance] are references to the acting object itself and are read off
    the world when the signal is sent. *)
Record signal_kwargs : Type := {
  kw_name : string;
  kw_field : field_ref;
  kw_source : value;
  kw_destination : destination;
  kw_exception : option exn;
  kw_method_args : list value;
  kw_method_kwargs : gmap string value
}.

Definition with_destination (kw : signal_kwargs) (d : destination)
  : signal_kwargs :=
  {| kw_name := kw_name kw; kw_field := kw_field kw;
     kw_source := kw_source kw; kw_destination := d;
     kw_exception := kw_exception kw;
     kw_method_args := kw_method_args kw;
     kw_method_kwargs := kw_method_kwargs kw |}.

Definition with_exception (kw : signal_kwargs) (exc : exn)
  : signal_kwargs :=
  {| kw_name := kw_name kw; kw_field := kw_field kw;
     kw_source := kw_source kw; kw_destination := kw_destination kw;
     kw_exception := Some exc;
     kw_method_args := kw_method_args kw;
     kw_method_kwargs := kw_method_kwargs kw |}.

(** What the driver itself does to the outside: a write through
    [set_state], or a [transition.send]. *)
Inductive event : Type :=
| SetState (state : value)
| Send (kw : signal_kwargs).

(** The acting object and the driver's events so far, oldest first. *)
Record world : Type := {
  obj : instance;
  log : list event
}.

Definition M (A : Type) : Type := world -> world * result A.

Definition ret {A} (a : A) : M A := fun w => (w, Ok a).

Definition raise {A} (e : exn) : M A := fun w => (w, Raise e).

Definition bind {A B} (m : M A) (k : A -> M B) : M B :=
  fun w =>
    match m w with
    | (w', Ok a) => k a w'
    | (w', Raise e) => (w', Raise e)
    end.

Notation "'let*' x ':=' m 'in' k" := (bind m (fun x => k))
  (at level 10, x name, m at level 100, k at level 200).
Notation "m ';;;' k" := (bind m (fun _ => k))
  (at level 100, k at level 200, right associativity).

(** A fallible computation that only reads the acting object. *)
Definition read {A} (f : instance -> result A) : M A :=
  fun w => (w, f (obj w)).

(** [self.set_state(method_owner, state)] *)
Definition set_state (self : FSMField.t) (state : value) : M unit :=
  fun w =>
    ({| obj := FSMField.set_state self (obj w) state;
        log := log w ++ [SetState state] |}, Ok tt).

(** [transition.send] with the entries of [signal_kwargs].  The receivers
    connected to the signal are outside the model and taken not to raise. *)
Definition send (kw : signal_kwargs) : M unit :=
  fun w => ({| obj := obj w; log := log w ++ [Send kw] |}, Ok tt).

(** [method(method_owner, ...)] with the original call arguments *)
Definition call (method : Method) (a : call_args) : M value :=
  fun w =>
    let (o, r) := body method (obj w) a in
    ({| obj := o; log := log w |}, r).

(** [try: body  except Exception as exc: handler(exc)  else: orelse] *)
Definition try_except_else {A B} (tried : M A) (handler : exn -> M B)
    (orelse : A -> M B) : M B :=
  fun w =>
    match tried w with
    | (w', Ok a) => orelse a w'
    | (w', Raise exc) => handler exc w'
    end.

(** The dictionary [signal_kwargs] as first built, before the body runs. *)
Definition initial_kwargs (method_name : string) (fsm_tag : FSMTag.t)
    (current_state : value) (next_state : destination) (a : call_args)
  : signal_kwargs :=
  {| kw_name := method_name;
     kw_field := FSMTag.field fsm_tag;
     kw_source := current_state;
     kw_destination := next_state;
     kw_exception := None;
     kw_method_args := args a;
     kw_method_kwargs := kwargs a |}.

Definition change_state (self : FSMField.t) (method : Method)
    (a : call_args) : M value :=
  let fsm_tag := _fsm_tag method in
  let method_name := __name__ method in
  let* current_state := read (FSMField.get_state self) in
  let* permitted := read (fun _ => FSMTag.has_transition fsm_tag current_state) in
  if negb permitted then raise TransitionNotAllowed else
  let* met :=
    read (fun owner => FSMTag.conditions_met fsm_tag owner current_state) in
  if negb met then raise TransitionNotAllowed else
  let* next_state := read (fun _ => FSMTag.next_state fsm_tag current_state) in
  let signal_kwargs :=
    initial_kwargs method_name fsm_tag current_state next_state a in
  try_except_else
    (let* res := call method a in
     match next_state with
     | DestValue VNone => ret (res, signal_kwargs)
     | DestOneOf one_of =>
         let* next_state := read (fun _ => ONE_OF.get_state one_of res) in
         (set_state self next_state ;;;
          ret (res, with_destination signal_kwargs (DestValue next_state)))
     | DestValue next_state =>
         (set_state self next_state ;;; ret (res, signal_kwargs))
     end)
    (fun exc =>
       let* exception_state :=
         read (fun _ => FSMTag.exception_state fsm_tag current_state) in
       if py_truthy exception_state then
         (set_state self exception_state ;;;
          send (with_exception
                  (with_destination signal_kwargs (DestValue exception_state))
                  exc) ;;;
          raise exc)
       else raise exc)
    (fun '(res, kw) => (send kw ;;; ret res)).

(** The wrapper returned by the decorator:
    [fsm_tag.field.change_state(method_owner, method, ...)].
    While the tag still holds the field's name, the string has no
    [change_state]. *)
Definition _change_state (method : Method) (a : call_args) : M value :=
  match FSMTag.field (_fsm_tag method) with
  | FieldObj fld => change_state fld method a
  | FieldName _ => raise AttributeError
  end.

(** One call from outside: the object as the call leaves it, the driver's
    events, and what the caller gets. *)
Definition run {A} (m : M A) (owner : instance) : world * result A :=
  m {| obj := owner; log := [] |}.

(** ** fsm_field.FSMFieldDescriptor *)

Module FSMFieldDescriptor.

(** [private_field_name] is computed once, when the descriptor is built. *)
Record t : Type := Build {
  field : FSMField.t;
  private_field_name : string
}.

Definition init (fld : FSMField.t) : t :=
  Build fld ("__fsm_" ++ FSMField.name fld).

(** What [__get__] hands back: the descriptor itself when the attribute is
    reached through the class, the stored state otherwise. *)
Inductive got : Type :=
| GotDescriptor (d : t)
| GotValue (v : value).

(** [__get__(self, model, objtype)]; [model] is [None] on class access. *)
Definition __get__ (self : t) (model : option instance) : result got :=
  match model with
  | None => Ok (GotDescriptor self)
  | Some m =>
      match m !! private_field_name self with
      | Some v => Ok (GotValue v)
      | None => Raise AttributeError
      end
  end.

(** [__set__(self, model, value)]: the model after the assignment. *)
Definition __set__ (self : t) (model : instance) (v : value)
  : result instance :=
  if FSMField.readonly (field self)
     && bool_decide (is_Some (model !! private_field_name self))
  then Raise AttributeError
  else Ok (<[private_field_name self := v]> model).

End FSMFieldDescriptor.

(** ** fsm_field.FSMField: construction and deconstruction *)

(** Keyword arguments as a migration stores them and hands them back to
    [__init__]. *)
Inductive kwarg : Type :=
| KBool (b : bool)
| KInt (n : Z)
| KStr (s : string).

Definition kwarg_truthy (k : kwarg) : bool :=
  match k with
  | KBool b => b
  | KInt n => negb (Z.eqb n 0)
  | KStr s => negb (String.eqb s "")
  end.

(** [FSMField] called with keyword arguments: the [readonly] flag the new field holds, the
    parameter's default being [True].  The flag is only ever tested for
    truth. *)
Definition init_readonly (kwargs : gmap string kwarg) : bool :=
  match kwargs !! "readonly" with
  | Some k => kwarg_truthy k
  | None => true
  end.

(** [deconstruct]: the keyword arguments returned, given those of
    [super().deconstruct()]; name, path and positional arguments are
    passed through untouched. *)
Definition deconstruct (self : FSMField.t) (super_kwargs : gmap string kwarg)
  : gmap string kwarg :=
  if FSMField.readonly self
  then <["readonly" := KBool (FSMField.readonly self)]> super_kwargs
  else super_kwargs.

(** ** fsm_field.FSMField.assign_field_to_tag *)

(** A class member as [getmembers] reports it: a function carrying an
    [_fsm_tag], or anything else. *)
Inductive member : Type :=
| Tagged (m : Method)
| Plain (v : value).

(** A class: its name, the names of the classes of its MRO (itself
    included), and its members. *)
Record py_class : Type := {
  cls_name : string;
  cls_mro : list string;
  cls_members : gmap string member
}.

Definition issubclass (cls : py_class) (parent : string) : bool :=
  bool_decide (parent ∈ cls_mro cls).

(** [value._fsm_tag.field == self.name]: only a tag still holding a name
    can equal it. *)
Definition names_field (self : FSMField.t) (fld : field_ref) : bool :=
  match fld with
  | FieldName s => String.eqb s (FSMField.name self)
  | FieldObj _ => false
  end.

(** The body of the loop for one member. *)
Definition assign_member (self : FSMField.t) (mb : member) : member :=
  match mb with
  | Tagged m =>
      if names_field self (FSMTag.field (_fsm_tag m))
      then Tagged {| __name__ := __name__ m;
                     _fsm_tag :=
                       FSMTag.Build (FieldObj self)
                         (FSMTag.transitions (_fsm_tag m));
                     body := body m |}
      else mb
  | Plain _ => mb
  end.

(** [assign_field_to_tag(self, sender)], with [self.parent_cls] as set by
    [contribute_to_class] ([None] before). *)
Definition assign_field_to_tag (self : FSMField.t)
    (parent_cls : option string) (sender : py_class) : py_class :=
  match parent_cls with
  | None => sender
  | Some parent =>
      if negb (issubclass sender parent) then sender
      else {| cls_name := cls_name sender;
              cls_mro := cls_mro sender;
              cls_members := assign_member self <$> cls_members sender |}
  end.

(** * Example declarations *)

Definition state_field : FSMField.t := FSMField.Build "state" true.

Definition no_args : call_args := {| args := []; kwargs := ∅ |}.

(** An owner whose [state] field holds the given name. *)
Definition owner_in (state : string) : instance :=
  {[ "__fsm_state" := VStr state ]}.

(** Method bodies that touch nothing and return, respectively raise. *)
Definition returning (v : value)
  : instance -> call_args -> instance * result value :=
  fun owner _ => (owner, Ok v).

Definition raising (exc : exn)
  : instance -> call_args -> instance * result value :=
  fun owner _ => (owner, Raise exc).

(** The entry [add_transition] stores, with [custom] left at its default. *)
Definition entry (source : string) (dest : destination) (on_error : value)
    (conditions : list (instance -> bool)) : Transition :=
  {| tr_source := source; tr_destination := dest; tr_on_error := on_error;
     tr_conditions := Some conditions; tr_custom := ∅ |}.

(** A table holding only a ["+"] entry towards ["published"]. *)
Definition plus_only : gmap string Transition :=
  {[ "+" := entry "+" (DestValue (VStr "published")) VNone [] ]}.

(** A method as the decorator leaves it for one source, bound to
    [state_field]. *)
Definition tagged (method_name : string) (tr : Transition)
    (method_body : instance -> call_args -> instance * result value)
  : Method :=
  {| __name__ := method_name;
     _fsm_tag := FSMTag.Build (FieldObj state_field) {[ tr_source tr := tr ]};
     body := method_body |}.

(** [ONE_OF('approved', 'rejected')] *)
Definition approved_or_rejected : ONE_OF.t :=
  ONE_OF.Build (Some [VStr "approved"; VStr "rejected"]).

(** [@transition(src='draft', dest=None, conditions=[lambda o: True])],
    body returning [3]. *)
Definition validate : Method :=
  tagged "validate"
    (entry "draft" (DestValue VNone) VNone [fun _ => true])
    (returning (VInt 3)).

(** [@transition(src='draft', dest='published', on_error=...)], body
    raising. *)
Definition publish (on_error : value) : Method :=
  tagged "publish"
    (entry "draft" (DestValue (VStr "published")) on_error [])
    (raising (UserException "boom")).

(** [@transition(src='pending', dest=ONE_OF('approved', 'rejected'),
    on_error=...)], body returning ['bogus']. *)
Definition review (on_error : value) : Method :=
  tagged "review"
    (entry "pending" (DestOneOf approved_or_rejected) on_error [])
    (returning (VStr "bogus")).

(** [@transition(src='+', dest='published', conditions=[lambda o: False])] *)
Definition publish_from_any : Method :=
  tagged "publish"
    (entry "+" (DestValue (VStr "published")) VNone [fun _ => false])
    (returning VNone).

(** [publish] declared with [field='state'], as the decorator leaves it
    before the class is prepared. *)
Definition unbound_publish : Method :=
  {| __name__ := "publish";
     _fsm_tag :=
       FSMTag.Build (FieldName "state")
         {[ "draft" := entry "draft" (DestValue (VStr "published")) VNone [] ]};
     body := returning VNone |}.

(** A model class with that method and an ordinary attribute. *)
Definition article : py_class :=
  {| cls_name := "Article";
     cls_mro := ["Article"; "Model"];
     cls_members := {[ "publish" := Tagged unbound_publish;
                       "title" := Plain (VStr "") ]} |}.

(** * Properties *)

(** ** The resolver: [get_transition] *)

Lemma get_transition_state (tag : FSMTag.t) (s : string) :
  FSMTag.get_transition tag (VStr s) =
  Ok (match FSMTag.transitions tag !! s with
      | Some tr => Some tr
      | None =>
          match FSMTag.transitions tag !! "*" with
          | Some tr => Some tr
          | None => FSMTag.transitions tag !! "+"
          end
      end).
Proof.
  unfold FSMTag.get_transition, dict_get, rbind; simpl.
  destruct (FSMTag.transitions tag !! s); [done|].
  by destruct (FSMTag.transitions tag !! "*").
Qed.

(** C6.  [get_transition] on a state name answers with the entry stored
    under that very name when there is one; failing that with the entry
    stored under ["*"]; failing that with the entry stored under ["+"];
    and with [None], not an exception, when none of the three exists. *)
Theorem get_transition_lookup_order (tag : FSMTag.t) (s : string) :
  (∀ tr, FSMTag.transitions tag !! s = Some tr →
         FSMTag.get_transition tag (VStr s) = Ok (Some tr)) ∧
  (∀ tr, FSMTag.transitions tag !! s = None →
         FSMTag.transitions tag !! "*" = Some tr →
         FSMTag.get_transition tag (VStr s) = Ok (Some tr)) ∧
  (∀ tr, FSMTag.transitions tag !! s = None →
         FSMTag.transitions tag !! "*" = None →
         FSMTag.transitions tag !! "+" = Some tr →
         FSMTag.get_transition tag (VStr s) = Ok (Some tr)) ∧
  (FSMTag.transitions tag !! s = None →
   FSMTag.transitions tag !! "*" = None →
   FSMTag.transitions tag !! "+" = None →
   FSMTag.get_transition tag (VStr s) = Ok None).
Proof.
  rewrite get_transition_state.
  repeat split.
  - by intros tr ->.
  - by intros tr -> ->.
  - by intros tr -> -> ->.
  - by intros -> -> ->.
Qed.

(** ** [has_transition] and the ["+"] entry *)

(** With an exact entry or a ["*"] entry the answer is [True]; with none of
    the three entries it is [False]. *)
Lemma has_transition_exact (tag : FSMTag.t) (s : string) :
  is_Some (FSMTag.transitions tag !! s) →
  FSMTag.has_transition tag (VStr s) = Ok true.
Proof.
  intros H. unfold FSMTag.has_transition, dict_contains, dict_get, rbind; simpl.
  by rewrite bool_decide_eq_true_2.
Qed.

Lemma has_transition_star (tag : FSMTag.t) (s : string) :
  is_Some (FSMTag.transitions tag !! "*") →
  FSMTag.has_transition tag (VStr s) = Ok true.
Proof.
  intros H. unfold FSMTag.has_transition, dict_contains, dict_get, rbind; simpl.
  rewrite (bool_decide_eq_true_2 _ H). by case_bool_decide.
Qed.

Lemma has_transition_none (tag : FSMTag.t) (s : string) :
  FSMTag.transitions tag !! s = None →
  FSMTag.transitions tag !! "*" = None →
  FSMTag.transitions tag !! "+" = None →
  FSMTag.has_transition tag (VStr s) = Ok false.
Proof.
  intros Hs Hstar Hplus.
  unfold FSMTag.has_transition, dict_contains, dict_get, rbind; simpl.
  rewrite Hs, Hstar, Hplus.
  rewrite !bool_decide_eq_false_2; [done | by intros [? ?] ..].
Qed.

(** When the ["+"] entry is the one to decide, reading its [target]
    raises: the comparison with the state is never made. *)
Lemma has_transition_plus (tag : FSMTag.t) (s : string) (plus : Transition) :
  FSMTag.transitions tag !! s = None →
  FSMTag.transitions tag !! "*" = None →
  FSMTag.transitions tag !! "+" = Some plus →
  FSMTag.has_transition tag (VStr s) = Raise AttributeError.
Proof.
  intros Hs Hstar Hplus.
  unfold FSMTag.has_transition, dict_contains, dict_get, rbind; simpl.
  rewrite Hs, Hstar, Hplus.
  rewrite !bool_decide_eq_false_2; [done | by intros [? ?] ..].
Qed.

(** [has_transition] answers [True] only on an exact or a ["*"] entry. *)
Lemma has_transition_true_inv (tag : FSMTag.t) (state : value) :
  FSMTag.has_transition tag state = Ok true →
  ∃ tr, FSMTag.get_transition tag state = Ok (Some tr).
Proof.
  unfold FSMTag.has_transition, FSMTag.get_transition, dict_contains, rbind.
  destruct (dict_get (FSMTag.transitions tag) state) as [o|e]; [|done].
  destruct o as [tr|]; simpl.
  - intros _. by exists tr.
  - case_bool_decide as Hstar.
    + destruct Hstar as [tr ->]. intros _. by exists tr.
    + destruct (FSMTag.transitions tag !! "+"); [|done].
      unfold Transition_target. done.
Qed.

(** C2.  On the table that [add_transition] builds from the single source
    ["+"] with destination ["published"], [has_transition] raises
    [AttributeError] both for the state ["draft"], where a ["+"] entry
    should apply, and for ["published"], where it should answer [False]. *)
Theorem has_transition_plus_attribute_error :
  ∃ tag,
    FSMTag.add_transition (FSMTag.init (FieldName "state")) "+"
      (DestValue (VStr "published")) VNone (Some []) ∅ = Ok tag ∧
    FSMTag.transitions tag = plus_only ∧
    FSMTag.has_transition tag (VStr "draft") = Raise AttributeError ∧
    FSMTag.has_transition tag (VStr "published") = Raise AttributeError.
Proof.
  eexists. split; [reflexivity|]. split; [reflexivity|].
  split; by eapply has_transition_plus.
Qed.

(** ** Registration: [add_transition] and the decorator *)

Lemma add_transition_taken (tag : FSMTag.t) (source : string) dest on_error
    conditions custom :
  is_Some (FSMTag.transitions tag !! source) →
  FSMTag.add_transition tag source dest on_error conditions custom
  = Raise AssertionError.
Proof.
  intros H. unfold FSMTag.add_transition. by rewrite bool_decide_eq_true_2.
Qed.

Lemma add_transition_free (tag : FSMTag.t) (source : string) dest on_error
    conditions custom :
  FSMTag.transitions tag !! source = None →
  FSMTag.add_transition tag source dest on_error conditions custom
  = Ok (FSMTag.Build (FSMTag.field tag)
          (<[source := {| tr_source := source; tr_destination := dest;
                          tr_on_error := on_error;
                          tr_conditions := conditions;
                          tr_custom := custom |}]>
             (FSMTag.transitions tag))).
Proof.
  intros H. unfold FSMTag.add_transition.
  rewrite bool_decide_eq_false_2; [done|]. rewrite H. by intros [? ?].
Qed.

(** The loop over a sequence of sources succeeds exactly when the sources
    are pairwise distinct and none is registered yet; it then registers
    them all and nothing else. *)
Lemma add_each_ok (states : list string) dest on_error conditions custom :
  ∀ tag : FSMTag.t,
    NoDup states →
    (∀ s, s ∈ states → FSMTag.transitions tag !! s = None) →
    ∃ tag',
      add_each tag states dest on_error conditions custom = Ok tag' ∧
      FSMTag.field tag' = FSMTag.field tag ∧
      ∀ k, is_Some (FSMTag.transitions tag' !! k) ↔
           k ∈ states ∨ is_Some (FSMTag.transitions tag !! k).
Proof.
  induction states as [|s rest IH]; intros tag Hnd Hfree; simpl.
  - exists tag. split; [done|]. split; [done|]. intros k. split.
    + by right.
    + intros [H|H]; [by apply elem_of_nil in H | done].
  - apply NoDup_cons in Hnd as [Hs Hrest].
    rewrite add_transition_free by (apply Hfree; left).
    unfold rbind.
    match goal with |- context [add_each ?t] => set (tag1 := t) end.
    destruct (IH tag1 Hrest) as (tag' & Hok & Hfld & Hdom).
    + intros k Hk. subst tag1. simpl. rewrite lookup_insert_ne.
      * apply Hfree. by right.
      * intros ->. done.
    + exists tag'. split; [exact Hok|]. split; [by rewrite Hfld|].
      intros k. rewrite Hdom. simpl. rewrite elem_of_cons.
      destruct (decide (k = s)) as [->|Hne].
      * rewrite lookup_insert_eq. split; [by left; left | by right; eexists].
      * rewrite lookup_insert_ne by done. tauto.
Qed.

Lemma add_each_dup (states : list string) dest on_error conditions custom :
  ∀ tag : FSMTag.t,
    ¬ NoDup states →
    add_each tag states dest on_error conditions custom
    = Raise AssertionError.
Proof.
  induction states as [|s rest IH]; intros tag Hdup; simpl.
  - destruct Hdup. constructor.
  - destruct (FSMTag.transitions tag !! s) as [old|] eqn:Hs.
    + rewrite add_transition_taken; [done | by exists old].
    + rewrite add_transition_free by done. unfold rbind.
      destruct (decide (s ∈ rest)) as [Hin|Hnin].
      * clear IH Hdup. set (tag1 := FSMTag.Build _ _).
        assert (Hreg : is_Some (FSMTag.transitions tag1 !! s)).
        { subst tag1. simpl. rewrite lookup_insert_eq. by eexists. }
        clearbody tag1. revert tag1 Hreg.
        induction rest as [|r rest IH]; intros tag1 Hreg.
        { by apply elem_of_nil in Hin. }
        simpl. destruct (decide (r = s)) as [->|Hne].
        { by rewrite add_transition_taken. }
        apply elem_of_cons in Hin as [?|Hin]; [congruence|].
        destruct (FSMTag.transitions tag1 !! r) as [old|] eqn:Hr.
        { rewrite add_transition_taken; [done | by exists old]. }
        rewrite add_transition_free by done. unfold rbind.
        apply IH; [exact Hin|]. simpl. by rewrite lookup_insert_ne.
      * apply IH. intros Hrest. apply Hdup. by constructor.
Qed.

(** C7.  [add_transition] raises (with [AssertionError]) when the table
    already holds an entry for the source and registers the entry
    otherwise; the decorator given a sequence of sources registers one
    entry per element when they are pairwise distinct and raises as soon as
    the sequence repeats a source; given one source it never raises. *)
Theorem duplicate_source_validation (fld : field_ref) (dest : destination)
    (on_error : value) (conditions : option (list (instance -> bool)))
    (custom : gmap string value) (method_name : string)
    (method_body : instance -> call_args -> instance * result value) :
  (∀ tag source,
     is_Some (FSMTag.transitions tag !! source) →
     FSMTag.add_transition tag source dest on_error conditions custom
     = Raise AssertionError) ∧
  (∀ tag source,
     FSMTag.transitions tag !! source = None →
     ∃ tag',
       FSMTag.add_transition tag source dest on_error conditions custom
       = Ok tag' ∧
       is_Some (FSMTag.transitions tag' !! source) ∧
       ∀ k, k ≠ source →
            FSMTag.transitions tag' !! k = FSMTag.transitions tag !! k) ∧
  (∀ states,
     NoDup states →
     ∃ method,
       transition (SrcSeq states) dest fld on_error conditions custom
         method_name method_body = Ok method ∧
       ∀ k, is_Some (FSMTag.transitions (_fsm_tag method) !! k) ↔
            k ∈ states) ∧
  (∀ states,
     ¬ NoDup states →
     transition (SrcSeq states) dest fld on_error conditions custom
       method_name method_body = Raise AssertionError) ∧
  (∀ source,
     ∃ method,
       transition (SrcOne source) dest fld on_error conditions custom
         method_name method_body = Ok method ∧
       ∀ k, is_Some (FSMTag.transitions (_fsm_tag method) !! k) ↔
            k = source).
Proof.
  split; [|split; [|split; [|split]]].
  - intros tag source H. by apply add_transition_taken.
  - intros tag source H. eexists. split; [by apply add_transition_free|].
    simpl. split.
    + rewrite lookup_insert_eq. by eexists.
    + intros k Hk. by rewrite lookup_insert_ne.
  - intros states Hnd. unfold transition.
    destruct (add_each_ok states dest on_error conditions custom
                (FSMTag.init fld) Hnd) as (tag' & -> & _ & Hdom).
    { intros s _. apply lookup_empty. }
    eexists. split; [reflexivity|]. simpl. intros k. rewrite Hdom.
    simpl. rewrite lookup_empty. split; [|by left].
    intros [H|[? H]]; [done | discriminate].
  - intros states Hdup. unfold transition.
    by rewrite add_each_dup.
  - intros source. unfold transition.
    rewrite add_transition_free by apply lookup_empty.
    eexists. split; [reflexivity|]. simpl. intros k.
    destruct (decide (k = source)) as [->|Hne].
    + rewrite lookup_insert_eq. split; [done | by eexists].
    + rewrite lookup_insert_ne by done. rewrite lookup_empty.
      split; [by intros [? ?] | done].
Qed.

(** ** The ONE_OF selector *)


Lemma get_state_allowed (sel : ONE_OF.t) (allowed : list value) (v : value) :
  ONE_OF.allowed_states sel = Some allowed →
  ONE_OF.get_state sel v
  = if py_in v allowed then Ok v else Raise TransitionNotAllowed.
Proof.
  intros H. unfold ONE_OF.get_state. rewrite H. by destruct (py_in v allowed).
Qed.



(** C10.  When the only argument is neither a [str] nor a [list] nor a
    [tuple], [__init__] returns normally without assigning
    [allowed_states], and every later [get_state] raises
    [AttributeError], never the not-a-member [TransitionNotAllowed]. *)
Theorem ONE_OF_unset_allowed_states (arg : value) :
  (∀ s, arg ≠ VStr s) →
  (∀ xs, arg ≠ VList xs) →
  (∀ xs, arg ≠ VTuple xs) →
  ∃ sel,
    ONE_OF.init [arg] = Ok sel ∧
    ONE_OF.allowed_states sel = None ∧
    ∀ v, ONE_OF.get_state sel v = Raise AttributeError.
Proof.
  intros Hstr Hlist Htuple. exists (ONE_OF.Build None).
  split; [|by split].
  destruct arg; try reflexivity.
  - by destruct (Hstr s).
  - by destruct (Hlist xs).
  - by destruct (Htuple xs).
Qed.

(** C10 at a set of two state names. *)
Lemma ONE_OF_unset_allowed_states_witness :
  ∃ sel,
    ONE_OF.init [VSet {[ "approved"; "rejected" ]}] = Ok sel ∧
    ONE_OF.allowed_states sel = None ∧
    ∀ v, ONE_OF.get_state sel v = Raise AttributeError.
Proof.
  apply (ONE_OF_unset_allowed_states (VSet {[ "approved"; "rejected" ]}));
    intros; discriminate.
Defined.

(** ** The driver: [change_state] *)

Lemma next_state_resolved (tag : FSMTag.t) (state : value) (tr : Transition) :
  FSMTag.get_transition tag state = Ok (Some tr) →
  FSMTag.next_state tag state = Ok (tr_destination tr).
Proof. intros H. unfold FSMTag.next_state. by rewrite H. Qed.

Lemma exception_state_resolved (tag : FSMTag.t) (state : value)
    (tr : Transition) :
  FSMTag.get_transition tag state = Ok (Some tr) →
  FSMTag.exception_state tag state = Ok (tr_on_error tr).
Proof. intros H. unfold FSMTag.exception_state. by rewrite H. Qed.

(** Steps 1 to 4 of the driver reject the call before the body runs. *)
Lemma change_state_no_transition (self : FSMField.t) (method : Method)
    (a : call_args) (owner : instance) (current_state : value) :
  FSMField.get_state self owner = Ok current_state →
  FSMTag.has_transition (_fsm_tag method) current_state = Ok false →
  run (change_state self method a) owner
  = ({| obj := owner; log := [] |}, Raise TransitionNotAllowed).
Proof.
  intros Hread Hhas.
  unfold run, change_state, bind, read; simpl.
  by rewrite Hread, Hhas.
Qed.

Lemma change_state_conditions_fail (self : FSMField.t) (method : Method)
    (a : call_args) (owner : instance) (current_state : value) :
  FSMField.get_state self owner = Ok current_state →
  FSMTag.has_transition (_fsm_tag method) current_state = Ok true →
  FSMTag.conditions_met (_fsm_tag method) owner current_state = Ok false →
  run (change_state self method a) owner
  = ({| obj := owner; log := [] |}, Raise TransitionNotAllowed).
Proof.
  intros Hread Hhas Hmet.
  unfold run, change_state, bind, read; simpl.
  rewrite Hread, Hhas; simpl. by rewrite Hmet.
Qed.

(** Whatever [has_transition] raises leaves the driver at once. *)
Lemma change_state_has_transition_raises (self : FSMField.t)
    (method : Method) (a : call_args) (owner : instance)
    (current_state : value) (exc : exn) :
  FSMField.get_state self owner = Ok current_state →
  FSMTag.has_transition (_fsm_tag method) current_state = Raise exc →
  run (change_state self method a) owner
  = ({| obj := owner; log := [] |}, Raise exc).
Proof.
  intros Hread Hhas.
  unfold run, change_state, bind, read; simpl.
  by rewrite Hread, Hhas.
Qed.

Section Permitted.

(** One call [change_state self method_owner method args] on an owner
    whose state is readable, from which the tag has a transition whose
    conditions are met; [tr] is the entry that [get_transition] finds. *)
Variables (self : FSMField.t) (method : Method) (a : call_args).
Variables (owner : instance) (current_state : value) (tr : Transition).

Hypothesis Hread : FSMField.get_state self owner = Ok current_state.
Hypothesis Hhas :
  FSMTag.has_transition (_fsm_tag method) current_state = Ok true.
Hypothesis Hmet :
  FSMTag.conditions_met (_fsm_tag method) owner current_state = Ok true.
Hypothesis Hres :
  FSMTag.get_transition (_fsm_tag method) current_state = Ok (Some tr).

Local Ltac enter_try :=
  unfold run, change_state, bind, read, try_except_else, call; simpl;
  rewrite Hread, Hhas; simpl; rewrite Hmet; simpl;
  rewrite (next_state_resolved _ _ _ Hres); simpl.

(** The [except] branch, for any exception that reaches it: the guard
    [if exception_state:] decides between commit-and-send and nothing. *)
Lemma change_state_handler (owner' : instance) (exc : exn) :
  body method owner a = (owner', Raise exc) ∨
  (∃ sel allowed res,
     tr_destination tr = DestOneOf sel ∧
     ONE_OF.allowed_states sel = Some allowed ∧
     py_in res allowed = false ∧
     body method owner a = (owner', Ok res) ∧
     exc = TransitionNotAllowed) →
  run (change_state self method a) owner
  = if py_truthy (tr_on_error tr)
    then ({| obj := FSMField.set_state self owner' (tr_on_error tr);
             log := [SetState (tr_on_error tr);
                     Send {| kw_name := __name__ method;
                             kw_field := FSMTag.field (_fsm_tag method);
                             kw_source := current_state;
                             kw_destination := DestValue (tr_on_error tr);
                             kw_exception := Some exc;
                             kw_method_args := args a;
                             kw_method_kwargs := kwargs a |}] |},
          Raise exc)
    else ({| obj := owner'; log := [] |}, Raise exc).
Proof.
  intros [Hbody|(sel & allowed & res & Hdest & Hsel & Hin & Hbody & ->)];
    enter_try; rewrite Hbody.
  - destruct (tr_destination tr) as [[]|];
      rewrite (exception_state_resolved _ _ _ Hres); simpl;
      by destruct (py_truthy (tr_on_error tr)).
  - rewrite Hdest. simpl.
    rewrite (get_state_allowed _ _ _ Hsel), Hin; simpl.
    rewrite (exception_state_resolved _ _ _ Hres); simpl.
    by destruct (py_truthy (tr_on_error tr)).
Qed.

(** C9.  A permitted call whose entry has destination [None] and whose
    body returns [res]: the driver writes no state (the owner is as the
    body left it), sends one signal without exception, and returns
    [res]. *)
Theorem absent_destination_success (owner' : instance) (res : value) :
  tr_destination tr = DestValue VNone →
  body method owner a = (owner', Ok res) →
  ∃ w,
    run (change_state self method a) owner = (w, Ok res) ∧
    obj w = owner' ∧
    log w = [Send {| kw_name := __name__ method;
                     kw_field := FSMTag.field (_fsm_tag method);
                     kw_source := current_state;
                     kw_destination := DestValue VNone;
                     kw_exception := None;
                     kw_method_args := args a;
                     kw_method_kwargs := kwargs a |}].
Proof.
  intros Hdest Hbody. enter_try. rewrite Hbody, Hdest. simpl.
  eexists. split; [reflexivity|]. by split.
Qed.

(** C4.  A permitted call whose body raises [exc] while the entry's
    [on_error] is [None]: the driver writes no state, sends nothing, and
    [exc] reaches the caller. *)
Theorem error_without_fallback (owner' : instance) (exc : exn) :
  tr_on_error tr = VNone →
  body method owner a = (owner', Raise exc) →
  run (change_state self method a) owner
  = ({| obj := owner'; log := [] |}, Raise exc).
Proof.
  intros Hnone Hbody.
  rewrite (change_state_handler owner' exc) by (by left).
  by rewrite Hnone.
Qed.


(** C1, amended.  A permitted call whose entry's destination is a
    [ONE_OF] and whose body returns a value outside the allowed states:
    [get_state] raises [TransitionNotAllowed] inside the [try], so the
    failure takes the same [except] branch as an error of the body.
    With a falsy [on_error] nothing is written or sent; with a truthy
    one the fallback state is written and one signal carrying the
    exception is sent.  The exception reaches the caller either way. *)
Theorem one_of_failure_takes_error_path (sel : ONE_OF.t)
    (allowed : list value) (owner' : instance) (res : value) :
  tr_destination tr = DestOneOf sel →
  ONE_OF.allowed_states sel = Some allowed →
  py_in res allowed = false →
  body method owner a = (owner', Ok res) →
  ∃ w,
    run (change_state self method a) owner
    = (w, Raise TransitionNotAllowed) ∧
    (py_truthy (tr_on_error tr) = false →
     obj w = owner' ∧ log w = []) ∧
    (py_truthy (tr_on_error tr) = true →
     obj w = FSMField.set_state self owner' (tr_on_error tr) ∧
     log w = [SetState (tr_on_error tr);
              Send {| kw_name := __name__ method;
                      kw_field := FSMTag.field (_fsm_tag method);
                      kw_source := current_state;
                      kw_destination := DestValue (tr_on_error tr);
                      kw_exception := Some TransitionNotAllowed;
                      kw_method_args := args a;
                      kw_method_kwargs := kwargs a |}]).
Proof.
  intros Hdest Hsel Hin Hbody.
  rewrite (change_state_handler owner' TransitionNotAllowed)
    by (right; by exists sel, allowed, res).
  destruct (py_truthy (tr_on_error tr)); eexists;
    (split; [reflexivity|]); split; intros; done.
Qed.

End Permitted.

(** C9 at [validate] called on a draft. *)
Lemma absent_destination_success_witness :
  ∃ w,
    run (change_state state_field validate no_args) (owner_in "draft")
    = (w, Ok (VInt 3)) ∧
    obj w = owner_in "draft" ∧
    log w = [Send {| kw_name := "validate";
                     kw_field := FieldObj state_field;
                     kw_source := VStr "draft";
                     kw_destination := DestValue VNone;
                     kw_exception := None;
                     kw_method_args := [];
                     kw_method_kwargs := ∅ |}].
Proof.
  apply (absent_destination_success state_field validate no_args
           (owner_in "draft") (VStr "draft")
           (entry "draft" (DestValue VNone) VNone [fun _ => true]));
    reflexivity.
Defined.

(** C4 at [publish] without fallback, called on a draft. *)
Lemma error_without_fallback_witness :
  run (change_state state_field (publish VNone) no_args) (owner_in "draft")
  = ({| obj := owner_in "draft"; log := [] |},
     Raise (UserException "boom")).
Proof.
  apply (error_without_fallback state_field (publish VNone) no_args
           (owner_in "draft") (VStr "draft")
           (entry "draft" (DestValue (VStr "published")) VNone []));
    reflexivity.
Defined.



(** C1, amended, at [review] with fallback ['failed']. *)
Lemma one_of_failure_takes_error_path_witness :
  ∃ w,
    run (change_state state_field (review (VStr "failed")) no_args)
      (owner_in "pending")
    = (w, Raise TransitionNotAllowed) ∧
    (py_truthy (VStr "failed") = false →
     obj w = owner_in "pending" ∧ log w = []) ∧
    (py_truthy (VStr "failed") = true →
     obj w
     = FSMField.set_state state_field (owner_in "pending") (VStr "failed") ∧
     log w = [SetState (VStr "failed");
              Send {| kw_name := "review";
                      kw_field := FieldObj state_field;
                      kw_source := VStr "pending";
                      kw_destination := DestValue (VStr "failed");
                      kw_exception := Some TransitionNotAllowed;
                      kw_method_args := [];
                      kw_method_kwargs := ∅ |}]).
Proof.
  apply (one_of_failure_takes_error_path state_field
           (review (VStr "failed")) no_args (owner_in "pending")
           (VStr "pending")
           (entry "pending" (DestOneOf approved_or_rejected)
              (VStr "failed") [])
           eq_refl eq_refl eq_refl eq_refl
           approved_or_rejected [VStr "approved"; VStr "rejected"]
           (owner_in "pending") (VStr "bogus"));
    reflexivity.
Defined.

(** C1, as stated, fails: with the fallback ['failed'] configured, a
    result outside the [ONE_OF] makes the driver write ['failed'] and send
    one signal before [TransitionNotAllowed] reaches the caller. *)
Lemma one_of_failure_commits_fallback :
  ONE_OF.init [VStr "approved"; VStr "rejected"] = Ok approved_or_rejected ∧
  transition (SrcOne "pending") (DestOneOf approved_or_rejected)
    (FieldObj state_field) (VStr "failed") (Some []) ∅ "review"
    (returning (VStr "bogus"))
  = Ok (review (VStr "failed")) ∧
  ∃ w,
    run (_change_state (review (VStr "failed")) no_args) (owner_in "pending")
    = (w, Raise TransitionNotAllowed) ∧
    FSMField.get_state state_field (owner_in "pending")
    = Ok (VStr "pending") ∧
    FSMField.get_state state_field (obj w) = Ok (VStr "failed") ∧
    log w = [SetState (VStr "failed");
             Send {| kw_name := "review";
                     kw_field := FieldObj state_field;
                     kw_source := VStr "pending";
                     kw_destination := DestValue (VStr "failed");
                     kw_exception := Some TransitionNotAllowed;
                     kw_method_args := [];
                     kw_method_kwargs := ∅ |}].
Proof.
  split; [reflexivity|]. split; [reflexivity|].
  eexists. split; [by vm_compute|]. by vm_compute.
Qed.

(** C5.  [publish_from_any] is declared with source ['+'] and a condition
    that fails.  Called on a draft, where the conditions are not met, the
    driver writes nothing and sends nothing, but the caller receives
    [AttributeError] from [has_transition], not [TransitionNotAllowed]. *)
Theorem plus_entry_call_raises_attribute_error :
  transition (SrcOne "+") (DestValue (VStr "published"))
    (FieldObj state_field) VNone (Some [fun _ => false]) ∅ "publish"
    (returning VNone)
  = Ok publish_from_any ∧
  FSMTag.conditions_met (_fsm_tag publish_from_any) (owner_in "draft")
    (VStr "draft") = Ok false ∧
  run (_change_state publish_from_any no_args) (owner_in "draft")
  = ({| obj := owner_in "draft"; log := [] |}, Raise AttributeError).
Proof.
  split; [reflexivity|]. split; [reflexivity|].
  apply (change_state_has_transition_raises state_field publish_from_any
           no_args (owner_in "draft") (VStr "draft")); [reflexivity|].
  by eapply has_transition_plus.
Qed.

(** * Further properties *)

(** ** The tag's queries *)

(** Whenever [has_transition] answers at all, it answers [True] exactly
    when [get_transition] finds an entry. *)
Theorem has_transition_agrees_with_get_transition (tag : FSMTag.t)
    (state : value) (answer : bool) :
  FSMTag.has_transition tag state = Ok answer →
  ∃ found,
    FSMTag.get_transition tag state = Ok found ∧
    (answer = true ↔ is_Some found).
Proof.
  unfold FSMTag.has_transition, FSMTag.get_transition, dict_contains, rbind.
  destruct (dict_get (FSMTag.transitions tag) state) as [o|e]; [|done].
  destruct o as [tr|]; simpl.
  - intros [= <-]. exists (Some tr). split; [done|]. split; [by eexists|done].
  - case_bool_decide as Hstar.
    + destruct Hstar as [tr Htr]. rewrite Htr. intros [= <-].
      exists (Some tr). split; [done|]. split; [by eexists|done].
    + destruct (FSMTag.transitions tag !! "*") as [tr|] eqn:Htr.
      { destruct Hstar. by eexists. }
      destruct (FSMTag.transitions tag !! "+") as [plus|]; [done|].
      intros [= <-]. exists None. split; [done|].
      split; [done | by intros [? ?]].
Qed.

Lemma has_transition_agrees_with_get_transition_witness :
  ∃ found,
    FSMTag.get_transition (_fsm_tag validate) (VStr "draft") = Ok found ∧
    (true = true ↔ is_Some found).
Proof.
  apply (has_transition_agrees_with_get_transition (_fsm_tag validate)
           (VStr "draft") true).
  reflexivity.
Defined.

(** A state with no entry of its own, on a tag without ["*"] and ["+"]
    entries: [has_transition] and [conditions_met] answer [False], and
    [next_state] and [exception_state] raise the tag module's
    [TransitionNotAllowed]. *)
Theorem unmatched_state_is_refused (tag : FSMTag.t) (s : string)
    (owner : instance) :
  FSMTag.transitions tag !! s = None →
  FSMTag.transitions tag !! "*" = None →
  FSMTag.transitions tag !! "+" = None →
  FSMTag.has_transition tag (VStr s) = Ok false ∧
  FSMTag.conditions_met tag owner (VStr s) = Ok false ∧
  FSMTag.next_state tag (VStr s) = Raise TransitionNotAllowed_tag ∧
  FSMTag.exception_state tag (VStr s) = Raise TransitionNotAllowed_tag.
Proof.
  intros Hs Hstar Hplus.
  split; [by apply has_transition_none|].
  unfold FSMTag.conditions_met, FSMTag.next_state, FSMTag.exception_state.
  rewrite get_transition_state, Hs, Hstar, Hplus. done.
Qed.

Lemma unmatched_state_is_refused_witness :
  FSMTag.has_transition (_fsm_tag validate) (VStr "published") = Ok false ∧
  FSMTag.conditions_met (_fsm_tag validate) (owner_in "published")
    (VStr "published") = Ok false ∧
  FSMTag.next_state (_fsm_tag validate) (VStr "published")
  = Raise TransitionNotAllowed_tag ∧
  FSMTag.exception_state (_fsm_tag validate) (VStr "published")
  = Raise TransitionNotAllowed_tag.
Proof.
  apply (unmatched_state_is_refused (_fsm_tag validate) "published"
           (owner_in "published")); reflexivity.
Defined.

(** ** What the decorator registers *)

(** The loop over the sources stores, under each source, the entry made of
    that source and the shared arguments, and leaves the other keys as
    they were. *)
Lemma add_each_lookup (states : list string) dest on_error conditions custom :
  ∀ tag tag' : FSMTag.t,
    add_each tag states dest on_error conditions custom = Ok tag' →
    FSMTag.field tag' = FSMTag.field tag ∧
    ∀ k, FSMTag.transitions tag' !! k
         = if bool_decide (k ∈ states)
           then Some {| tr_source := k; tr_destination := dest;
                        tr_on_error := on_error;
                        tr_conditions := conditions;
                        tr_custom := custom |}
           else FSMTag.transitions tag !! k.
Proof.
  induction states as [|s rest IH]; intros tag tag'; simpl.
  - intros [= <-]. by split.
  - unfold FSMTag.add_transition. case_bool_decide as Htaken; [done|].
    unfold rbind. intros Hrest. apply IH in Hrest as [Hfld Hlook].
    split; [done|]. intros k. rewrite Hlook. simpl.
    destruct (decide (k ∈ rest)) as [Hin|Hnin].
    + rewrite !bool_decide_eq_true_2; [done | by right | done].
    + rewrite (bool_decide_eq_false_2 _ Hnin).
      destruct (decide (k = s)) as [->|Hne].
      * rewrite lookup_insert_eq, bool_decide_eq_true_2; [done | by left].
      * rewrite lookup_insert_ne by done.
        rewrite bool_decide_eq_false_2; [done|].
        intros [?|?]%elem_of_cons; done.
Qed.

(** A method declared for a sequence of sources answers, for each of
    them, with the declared destination, the declared [on_error] and the
    declared conditions, whatever the sequence's order. *)
Theorem declared_sources_resolve (states : list string) (dest : destination)
    (fld : field_ref) (on_error : value)
    (conditions : list (instance -> bool)) (custom : gmap string value)
    (method_name : string)
    (method_body : instance -> call_args -> instance * result value)
    (method : Method) (s : string) (owner : instance) :
  transition (SrcSeq states) dest fld on_error (Some conditions) custom
    method_name method_body = Ok method →
  s ∈ states →
  FSMTag.has_transition (_fsm_tag method) (VStr s) = Ok true ∧
  FSMTag.next_state (_fsm_tag method) (VStr s) = Ok dest ∧
  FSMTag.exception_state (_fsm_tag method) (VStr s) = Ok on_error ∧
  FSMTag.conditions_met (_fsm_tag method) owner (VStr s)
  = Ok (forallb (fun condition => condition owner) conditions) ∧
  FSMTag.field (_fsm_tag method) = fld ∧
  __name__ method = method_name ∧
  body method = method_body.
Proof.
  unfold transition, rbind. intros Hdecl Hs.
  destruct (add_each _ _ _ _ _ _) as [tag|e] eqn:Hadd; [|done].
  injection Hdecl as <-. simpl.
  apply add_each_lookup in Hadd as [Hfld Hlook].
  specialize (Hlook s). rewrite bool_decide_eq_true_2 in Hlook by done.
  split. { apply has_transition_exact. rewrite Hlook. by eexists. }
  unfold FSMTag.next_state, FSMTag.exception_state, FSMTag.conditions_met.
  rewrite get_transition_state, Hlook. simpl. by rewrite Hfld.
Qed.

Lemma declared_sources_resolve_witness :
  ∃ method,
    transition (SrcSeq ["draft"; "rejected"]) (DestValue (VStr "published"))
      (FieldName "state") (VStr "failed") (Some [fun _ => true]) ∅
      "publish" (returning VNone) = Ok method ∧
    FSMTag.has_transition (_fsm_tag method) (VStr "rejected") = Ok true ∧
    FSMTag.next_state (_fsm_tag method) (VStr "rejected")
    = Ok (DestValue (VStr "published")) ∧
    FSMTag.exception_state (_fsm_tag method) (VStr "rejected")
    = Ok (VStr "failed").
Proof.
  eexists. split; [reflexivity|].
  match goal with
  | |- FSMTag.has_transition (_fsm_tag ?m) _ = _ ∧ _ =>
      pose proof (declared_sources_resolve
                    ["draft"; "rejected"] (DestValue (VStr "published"))
                    (FieldName "state") (VStr "failed") [fun _ => true] ∅
                    "publish" (returning VNone) m "rejected" ∅ eq_refl) as H
  end.
  destruct H as (H1 & H2 & H3 & _).
  - apply list_elem_of_In. simpl. tauto.
  - split; [exact H1|]. split; [exact H2 | exact H3].
Defined.

(** On a table whose every entry is the ["*"] entry, each hashable state
    resolves to it. *)
Lemma star_only_queries (tag : FSMTag.t) (star : Transition) (state : value) :
  FSMTag.transitions tag !! "*" = Some star →
  (∀ s tr, FSMTag.transitions tag !! s = Some tr → tr = star) →
  hashable state = true →
  FSMTag.has_transition tag state = Ok true ∧
  FSMTag.get_transition tag state = Ok (Some star).
Proof.
  intros Hstar Honly Hhash.
  unfold FSMTag.has_transition, FSMTag.get_transition, dict_contains,
    dict_get, rbind.
  rewrite Hhash, Hstar.
  assert (Hdec : bool_decide (is_Some (Some star)) = true)
    by (apply bool_decide_eq_true_2; by eexists).
  destruct state as [|s| | | |]; try discriminate Hhash;
    rewrite ?Hdec; simpl; try done.
  destruct (FSMTag.transitions tag !! s) as [tr|] eqn:Hs; simpl.
  - by rewrite (Honly s tr Hs).
  - done.
Qed.

(** A method declared with the default source ["*"] has a transition from
    every hashable state, always towards the declared destination. *)
Theorem star_source_matches_every_state (dest : destination)
    (fld : field_ref) (on_error : value)
    (conditions : option (list (instance -> bool)))
    (custom : gmap string value) (method_name : string)
    (method_body : instance -> call_args -> instance * result value) :
  ∃ method,
    transition (SrcOne "*") dest fld on_error conditions custom
      method_name method_body = Ok method ∧
    ∀ state,
      hashable state = true →
      FSMTag.has_transition (_fsm_tag method) state = Ok true ∧
      FSMTag.next_state (_fsm_tag method) state = Ok dest ∧
      FSMTag.exception_state (_fsm_tag method) state = Ok on_error.
Proof.
  eexists. split; [reflexivity|]. intros state Hhash.
  match goal with
  | |- FSMTag.has_transition ?tag _ = _ ∧ _ =>
      destruct (star_only_queries tag
                  {| tr_source := "*"; tr_destination := dest;
                     tr_on_error := on_error; tr_conditions := conditions;
                     tr_custom := custom |} state) as [Hhas Hget];
        [apply lookup_insert_eq | | exact Hhash |]
  end.
  - intros s tr. simpl. destruct (decide (s = "*")) as [->|Hne].
    + rewrite lookup_insert_eq. by intros [= <-].
    + by rewrite lookup_insert_ne, lookup_empty.
  - split; [exact Hhas|].
    unfold FSMTag.next_state, FSMTag.exception_state. by rewrite Hget.
Qed.

(** ** The state attribute *)

Lemma private_name_inj (f g : FSMField.t) :
  FSMField.private_name f = FSMField.private_name g →
  FSMField.name f = FSMField.name g.
Proof.
  unfold FSMField.private_name. intros H.
  by apply (inj (String.app "__fsm_")) in H.
Qed.

(** [get_state] reads back what [set_state] wrote; the write touches no
    other attribute, in particular not the state of a field with another
    name; and reading a state that was never written raises
    [AttributeError]. *)
Theorem state_attribute_round_trip (self other : FSMField.t)
    (model : instance) (state : value) :
  FSMField.get_state self (FSMField.set_state self model state) = Ok state ∧
  (FSMField.name other ≠ FSMField.name self →
   FSMField.get_state other (FSMField.set_state self model state)
   = FSMField.get_state other model) ∧
  (∀ k, k ≠ FSMField.private_name self →
        FSMField.set_state self model state !! k = model !! k) ∧
  (model !! FSMField.private_name self = None →
   FSMField.get_state self model = Raise AttributeError).
Proof.
  unfold FSMField.get_state, FSMField.set_state.
  split; [by rewrite lookup_insert_eq|]. split; [|split].
  - intros Hne. rewrite lookup_insert_ne; [done|].
    intros Heq. apply Hne. symmetry. by apply private_name_inj.
  - intros k Hk. by rewrite lookup_insert_ne.
  - by intros ->.
Qed.

(** ** The descriptor *)

(** On a read-only field, the descriptor accepts the first assignment (the
    one that initialises the state) and refuses every later one with
    [AttributeError]; reading gives the initial state. *)
Theorem readonly_descriptor_is_write_once (fld : FSMField.t)
    (model : instance) (state : value) :
  FSMField.readonly fld = true →
  model !! FSMField.private_name fld = None →
  ∃ model',
    FSMFieldDescriptor.__set__ (FSMFieldDescriptor.init fld) model state
    = Ok model' ∧
    FSMFieldDescriptor.__get__ (FSMFieldDescriptor.init fld) (Some model')
    = Ok (FSMFieldDescriptor.GotValue state) ∧
    ∀ state',
      FSMFieldDescriptor.__set__ (FSMFieldDescriptor.init fld) model' state'
      = Raise AttributeError.
Proof.
  intros Hro Hfresh.
  unfold FSMFieldDescriptor.__set__, FSMFieldDescriptor.__get__,
    FSMFieldDescriptor.init; simpl.
  change ("__fsm_" ++ FSMField.name fld) with (FSMField.private_name fld).
  rewrite Hro, Hfresh. simpl.
  eexists. split; [reflexivity|]. rewrite lookup_insert_eq.
  split; [done|]. intros state'.
  by rewrite bool_decide_eq_true_2 by (by eexists).
Qed.

Lemma readonly_descriptor_is_write_once_witness :
  ∃ model',
    FSMFieldDescriptor.__set__ (FSMFieldDescriptor.init state_field) ∅
      (VStr "draft") = Ok model' ∧
    FSMFieldDescriptor.__get__ (FSMFieldDescriptor.init state_field)
      (Some model') = Ok (FSMFieldDescriptor.GotValue (VStr "draft")) ∧
    ∀ state',
      FSMFieldDescriptor.__set__ (FSMFieldDescriptor.init state_field)
        model' state' = Raise AttributeError.
Proof.
  apply (readonly_descriptor_is_write_once state_field ∅ (VStr "draft"));
    reflexivity.
Defined.

(** On a field that is not read-only, every assignment through the
    descriptor succeeds, whatever the model held, and both the descriptor
    and the field's [get_state] read the assigned state back. *)
Theorem writable_descriptor_round_trip (fld : FSMField.t)
    (model : instance) (state : value) :
  FSMField.readonly fld = false →
  ∃ model',
    FSMFieldDescriptor.__set__ (FSMFieldDescriptor.init fld) model state
    = Ok model' ∧
    model' = FSMField.set_state fld model state ∧
    FSMFieldDescriptor.__get__ (FSMFieldDescriptor.init fld) (Some model')
    = Ok (FSMFieldDescriptor.GotValue state) ∧
    FSMField.get_state fld model' = Ok state.
Proof.
  intros Hrw.
  unfold FSMFieldDescriptor.__set__, FSMFieldDescriptor.__get__,
    FSMFieldDescriptor.init, FSMField.get_state, FSMField.set_state; simpl.
  change ("__fsm_" ++ FSMField.name fld) with (FSMField.private_name fld).
  rewrite Hrw. simpl. eexists. split; [reflexivity|].
  rewrite lookup_insert_eq. done.
Qed.

Lemma writable_descriptor_round_trip_witness :
  ∃ model',
    FSMFieldDescriptor.__set__
      (FSMFieldDescriptor.init (FSMField.Build "state" false))
      (owner_in "draft") (VStr "published") = Ok model' ∧
    model' = FSMField.set_state (FSMField.Build "state" false)
               (owner_in "draft") (VStr "published") ∧
    FSMFieldDescriptor.__get__
      (FSMFieldDescriptor.init (FSMField.Build "state" false)) (Some model')
    = Ok (FSMFieldDescriptor.GotValue (VStr "published")) ∧
    FSMField.get_state (FSMField.Build "state" false) model'
    = Ok (VStr "published").
Proof.
  apply (writable_descriptor_round_trip (FSMField.Build "state" false)
           (owner_in "draft") (VStr "published")).
  reflexivity.
Defined.

(** The field's own [set_state] goes around the descriptor: on a read-only
    field whose state is set, where the descriptor refuses the assignment,
    [set_state] still writes, and the descriptor reads the new state. *)
Theorem set_state_bypasses_readonly (fld : FSMField.t) (model : instance)
    (old new : value) :
  FSMField.readonly fld = true →
  FSMField.get_state fld model = Ok old →
  FSMFieldDescriptor.__set__ (FSMFieldDescriptor.init fld) model new
  = Raise AttributeError ∧
  FSMFieldDescriptor.__get__ (FSMFieldDescriptor.init fld)
    (Some (FSMField.set_state fld model new))
  = Ok (FSMFieldDescriptor.GotValue new).
Proof.
  intros Hro.
  unfold FSMFieldDescriptor.__set__, FSMFieldDescriptor.__get__,
    FSMFieldDescriptor.init, FSMField.get_state, FSMField.set_state; simpl.
  change ("__fsm_" ++ FSMField.name fld) with (FSMField.private_name fld).
  rewrite Hro, lookup_insert_eq. simpl.
  destruct (model !! FSMField.private_name fld) as [v|] eqn:Hv; [|done].
  intros _. split; [|done].
  by rewrite bool_decide_eq_true_2 by (by eexists).
Qed.

Lemma set_state_bypasses_readonly_witness :
  FSMFieldDescriptor.__set__ (FSMFieldDescriptor.init state_field)
    (owner_in "draft") (VStr "published") = Raise AttributeError ∧
  FSMFieldDescriptor.__get__ (FSMFieldDescriptor.init state_field)
    (Some (FSMField.set_state state_field (owner_in "draft")
             (VStr "published")))
  = Ok (FSMFieldDescriptor.GotValue (VStr "published")).
Proof.
  apply (set_state_bypasses_readonly state_field (owner_in "draft")
           (VStr "draft") (VStr "published")); reflexivity.
Defined.

(** ** Deconstruction *)

(** [deconstruct] records [readonly] only when it is true, while
    [__init__] defaults it to [True]: a field rebuilt from the
    deconstructed keyword arguments is always read-only, so the flag
    survives the round trip exactly when it was true.  The other keyword
    arguments pass through unchanged. *)
Theorem deconstruct_keeps_only_true_readonly (self : FSMField.t)
    (super_kwargs : gmap string kwarg) :
  super_kwargs !! "readonly" = None →
  init_readonly (deconstruct self super_kwargs) = true ∧
  (init_readonly (deconstruct self super_kwargs) = FSMField.readonly self
   ↔ FSMField.readonly self = true) ∧
  ∀ k, k ≠ "readonly" → deconstruct self super_kwargs !! k = super_kwargs !! k.
Proof.
  intros Hsuper. unfold init_readonly, deconstruct.
  destruct (FSMField.readonly self) eqn:Hro.
  - rewrite lookup_insert_eq. simpl. split; [done|]. split; [done|].
    intros k Hk. by rewrite lookup_insert_ne.
  - rewrite Hsuper. split; [done|]. split; [done|]. done.
Qed.

Lemma deconstruct_keeps_only_true_readonly_witness :
  init_readonly
    (deconstruct (FSMField.Build "state" false) {[ "max_length" := KInt 60 ]})
  = true ∧
  (init_readonly
     (deconstruct (FSMField.Build "state" false)
        {[ "max_length" := KInt 60 ]})
   = FSMField.readonly (FSMField.Build "state" false)
   ↔ FSMField.readonly (FSMField.Build "state" false) = true) ∧
  ∀ k, k ≠ "readonly" →
       deconstruct (FSMField.Build "state" false)
         {[ "max_length" := KInt 60 ]} !! k
       = ({[ "max_length" := KInt 60 ]} : gmap string kwarg) !! k.
Proof.
  apply (deconstruct_keeps_only_true_readonly (FSMField.Build "state" false)
           {[ "max_length" := KInt 60 ]}).
  reflexivity.
Defined.

(** ** The driver: commits *)

Section Commit.

(** As in [Permitted]: a call that passes steps 1 to 4. *)
Variables (self : FSMField.t) (method : Method) (a : call_args).
Variables (owner : instance) (current_state : value) (tr : Transition).

Hypothesis Hread : FSMField.get_state self owner = Ok current_state.
Hypothesis Hhas :
  FSMTag.has_transition (_fsm_tag method) current_state = Ok true.
Hypothesis Hmet :
  FSMTag.conditions_met (_fsm_tag method) owner current_state = Ok true.
Hypothesis Hres :
  FSMTag.get_transition (_fsm_tag method) current_state = Ok (Some tr).

Local Ltac enter_try :=
  unfold run, change_state, bind, read, try_except_else, call; simpl;
  rewrite Hread, Hhas; simpl; rewrite Hmet; simpl;
  rewrite (next_state_resolved _ _ _ Hres); simpl.

(** A permitted call towards a declared state whose body returns [res]:
    the driver writes the destination over what the body left, touching no
    other attribute, then sends one signal naming that destination, and
    returns [res]. *)
Theorem literal_destination_success (next : value) (owner' : instance)
    (res : value) :
  tr_destination tr = DestValue next →
  next ≠ VNone →
  body method owner a = (owner', Ok res) →
  ∃ w,
    run (change_state self method a) owner = (w, Ok res) ∧
    obj w = FSMField.set_state self owner' next ∧
    FSMField.get_state self (obj w) = Ok next ∧
    log w = [SetState next;
             Send {| kw_name := __name__ method;
                     kw_field := FSMTag.field (_fsm_tag method);
                     kw_source := current_state;
                     kw_destination := DestValue next;
                     kw_exception := None;
                     kw_method_args := args a;
                     kw_method_kwargs := kwargs a |}].
Proof.
  intros Hdest Hnext Hbody. enter_try. rewrite Hbody, Hdest. simpl.
  assert (FSMField.get_state self (FSMField.set_state self owner' next)
          = Ok next) as Hback.
  { unfold FSMField.get_state, FSMField.set_state.
    by rewrite lookup_insert_eq. }
  destruct next; try done; simpl;
    (eexists; split; [reflexivity|]; simpl; by rewrite Hback).
Qed.

(** A permitted call whose destination is a [ONE_OF] and whose body
    returns one of its allowed states: that state is the one written, the
    signal names it (not the selector) as destination, and it is
    returned. *)
Theorem one_of_success (sel : ONE_OF.t) (allowed : list value)
    (owner' : instance) (res : value) :
  tr_destination tr = DestOneOf sel →
  ONE_OF.allowed_states sel = Some allowed →
  res ∈ allowed →
  body method owner a = (owner', Ok res) →
  ∃ w,
    run (change_state self method a) owner = (w, Ok res) ∧
    obj w = FSMField.set_state self owner' res ∧
    FSMField.get_state self (obj w) = Ok res ∧
    log w = [SetState res;
             Send {| kw_name := __name__ method;
                     kw_field := FSMTag.field (_fsm_tag method);
                     kw_source := current_state;
                     kw_destination := DestValue res;
                     kw_exception := None;
                     kw_method_args := args a;
                     kw_method_kwargs := kwargs a |}].
Proof.
  intros Hdest Hsel Hin Hbody. enter_try. rewrite Hbody, Hdest. simpl.
  rewrite (get_state_allowed _ _ _ Hsel).
  unfold py_in. rewrite bool_decide_eq_true_2 by done. simpl.
  eexists. split; [reflexivity|]. simpl. split; [done|]. split; [|done].
  unfold FSMField.get_state, FSMField.set_state.
  by rewrite lookup_insert_eq.
Qed.

End Commit.

Lemma literal_destination_success_witness :
  ∃ w,
    run (change_state state_field
           (tagged "publish"
              (entry "draft" (DestValue (VStr "published")) VNone [])
              (returning VNone))
           no_args) (owner_in "draft")
    = (w, Ok VNone) ∧
    obj w = FSMField.set_state state_field (owner_in "draft")
              (VStr "published") ∧
    FSMField.get_state state_field (obj w) = Ok (VStr "published") ∧
    log w = [SetState (VStr "published");
             Send {| kw_name := "publish";
                     kw_field := FieldObj state_field;
                     kw_source := VStr "draft";
                     kw_destination := DestValue (VStr "published");
                     kw_exception := None;
                     kw_method_args := [];
                     kw_method_kwargs := ∅ |}].
Proof.
  apply (literal_destination_success state_field
           (tagged "publish"
              (entry "draft" (DestValue (VStr "published")) VNone [])
              (returning VNone))
           no_args (owner_in "draft") (VStr "draft")
           (entry "draft" (DestValue (VStr "published")) VNone [])
           eq_refl eq_refl eq_refl eq_refl
           (VStr "published") (owner_in "draft") VNone);
    [reflexivity | discriminate | reflexivity].
Defined.

Lemma one_of_success_witness :
  ∃ w,
    run (change_state state_field
           (tagged "review"
              (entry "pending" (DestOneOf approved_or_rejected) VNone [])
              (returning (VStr "approved")))
           no_args) (owner_in "pending")
    = (w, Ok (VStr "approved")) ∧
    obj w = FSMField.set_state state_field (owner_in "pending")
              (VStr "approved") ∧
    FSMField.get_state state_field (obj w) = Ok (VStr "approved") ∧
    log w = [SetState (VStr "approved");
             Send {| kw_name := "review";
                     kw_field := FieldObj state_field;
                     kw_source := VStr "pending";
                     kw_destination := DestValue (VStr "approved");
                     kw_exception := None;
                     kw_method_args := [];
                     kw_method_kwargs := ∅ |}].
Proof.
  apply (one_of_success state_field
           (tagged "review"
              (entry "pending" (DestOneOf approved_or_rejected) VNone [])
              (returning (VStr "approved")))
           no_args (owner_in "pending") (VStr "pending")
           (entry "pending" (DestOneOf approved_or_rejected) VNone [])
           eq_refl eq_refl eq_refl eq_refl
           approved_or_rejected [VStr "approved"; VStr "rejected"]
           (owner_in "pending") (VStr "approved"));
    [reflexivity | reflexivity | | reflexivity].
  apply list_elem_of_In. simpl. tauto.
Defined.

(** ** The driver: what it never does *)

(** Whatever the tag, the owner and the body, one call of [change_state]
    writes the state at most once and sends at most one signal.  A call
    that returns has sent exactly one signal, without exception, whose
    destination is [None] when nothing was written and the written state
    otherwise.  A call that raises has either done nothing at all, or
    written a truthy state and sent one signal carrying that state and the
    very exception raised.  After a write the field reads the written
    state. *)
Theorem change_state_events (self : FSMField.t) (method : Method)
    (a : call_args) (owner : instance) :
  ∃ w r,
    run (change_state self method a) owner = (w, r) ∧
    match r with
    | Ok _ =>
        ∃ kw,
          kw_exception kw = None ∧
          ((log w = [Send kw] ∧ kw_destination kw = DestValue VNone) ∨
           (∃ state,
              log w = [SetState state; Send kw] ∧
              kw_destination kw = DestValue state ∧
              FSMField.get_state self (obj w) = Ok state))
    | Raise exc =>
        log w = [] ∨
        ∃ state kw,
          log w = [SetState state; Send kw] ∧
          kw_destination kw = DestValue state ∧
          kw_exception kw = Some exc ∧
          py_truthy state = true ∧
          FSMField.get_state self (obj w) = Ok state
    end.
Proof.
  assert (Hback : ∀ m v,
             FSMField.get_state self (FSMField.set_state self m v) = Ok v).
  { intros m v. unfold FSMField.get_state, FSMField.set_state.
    by rewrite lookup_insert_eq. }
  unfold run, change_state, bind, read, try_except_else, call, set_state,
    send, ret, raise; simpl.
  destruct (FSMField.get_state self owner) as [cur|e]; simpl;
    [|eexists _, _; split; [reflexivity|]; by left].
  destruct (FSMTag.has_transition (_fsm_tag method) cur) as [[]|e]; simpl;
    [| eexists _, _; split; [reflexivity|]; by left ..].
  destruct (FSMTag.conditions_met (_fsm_tag method) owner cur) as [[]|e];
    simpl; [| eexists _, _; split; [reflexivity|]; by left ..].
  destruct (FSMTag.next_state (_fsm_tag method) cur) as [next|e]; simpl;
    [| eexists _, _; split; [reflexivity|]; by left].
  destruct (body method owner a) as [owner' [res|exc]]; simpl.
  - destruct next as [[]|sel]; simpl;
      try (eexists _, _; split; [reflexivity|]; simpl;
           eexists;
           (split;
            [| first [ left; split; reflexivity
                     | right; eexists; rewrite Hback;
                       repeat split; reflexivity ]]);
           reflexivity).
    destruct (ONE_OF.get_state sel res) as [chosen|exc]; simpl.
    + eexists _, _. split; [reflexivity|]. simpl.
      eexists. split; [|right; eexists; rewrite Hback; by repeat split].
      reflexivity.
    + destruct (FSMTag.exception_state (_fsm_tag method) cur) as [es|e];
        simpl; [| eexists _, _; split; [reflexivity|]; by left].
      destruct (py_truthy es) eqn:Htruthy; simpl;
        eexists _, _; (split; [reflexivity|]); simpl; [|by left].
      right. eexists _, _. rewrite Hback. by repeat split.
  - destruct (FSMTag.exception_state (_fsm_tag method) cur) as [es|e];
      simpl; [| eexists _, _; split; [reflexivity|]; by left].
    destruct (py_truthy es) eqn:Htruthy; simpl;
      eexists _, _; (split; [reflexivity|]); simpl; [|by left].
    right. eexists _, _. rewrite Hback. by repeat split.
Qed.

(** ** Binding tags to the field: [assign_field_to_tag] *)

Lemma assign_member_idemp (self : FSMField.t) (mb : member) :
  assign_member self (assign_member self mb) = assign_member self mb.
Proof.
  destruct mb as [m|v]; [|done]. simpl.
  destruct (names_field self (FSMTag.field (_fsm_tag m))) eqn:Hn; simpl.
  - done.
  - by rewrite Hn.
Qed.

Lemma names_field_true (self : FSMField.t) (fld : field_ref) :
  names_field self fld = true ↔ fld = FieldName (FSMField.name self).
Proof.
  destruct fld as [s|f]; simpl.
  - rewrite String.eqb_eq. split; [by intros -> | by intros [= ->]].
  - split; discriminate.
Qed.

(** When the prepared class descends from the field's class, every tagged
    member that names the field gets the field object in its tag and keeps
    its name, table and body; every other member (tagged for another
    field name, already bound, or not tagged) stays as it is; no member
    appears or disappears. *)
Theorem assign_field_to_tag_binds (self : FSMField.t) (parent : string)
    (sender : py_class) (k : string) :
  issubclass sender parent = true →
  match cls_members sender !! k with
  | Some (Tagged m) =>
      ∃ m',
        cls_members (assign_field_to_tag self (Some parent) sender) !! k
        = Some (Tagged m') ∧
        __name__ m' = __name__ m ∧
        body m' = body m ∧
        FSMTag.transitions (_fsm_tag m') = FSMTag.transitions (_fsm_tag m) ∧
        (FSMTag.field (_fsm_tag m) = FieldName (FSMField.name self) →
         FSMTag.field (_fsm_tag m') = FieldObj self) ∧
        (FSMTag.field (_fsm_tag m) ≠ FieldName (FSMField.name self) →
         m' = m)
  | other =>
      cls_members (assign_field_to_tag self (Some parent) sender) !! k = other
  end.
Proof.
  intros Hsub. unfold assign_field_to_tag. rewrite Hsub. simpl.
  rewrite lookup_fmap.
  destruct (cls_members sender !! k) as [[m|v]|]; simpl; [|done..].
  destruct (names_field self (FSMTag.field (_fsm_tag m))) eqn:Hn.
  - eexists. split; [reflexivity|]. simpl.
    do 4 (split; [done|]).
    intros Hne. apply names_field_true in Hn. done.
  - exists m. do 4 (split; [done|]). split; [|done].
    intros Heq. apply names_field_true in Heq. congruence.
Qed.

(** [assign_field_to_tag] does nothing while the field has no class, and
    nothing for a class that does not descend from the field's class;
    running it a second time changes nothing more. *)
Theorem assign_field_to_tag_guarded_idempotent (self : FSMField.t)
    (parent_cls : option string) (sender : py_class) :
  assign_field_to_tag self None sender = sender ∧
  (∀ parent, issubclass sender parent = false →
             assign_field_to_tag self (Some parent) sender = sender) ∧
  assign_field_to_tag self parent_cls
    (assign_field_to_tag self parent_cls sender)
  = assign_field_to_tag self parent_cls sender.
Proof.
  split; [done|]. split.
  - intros parent Hsub. unfold assign_field_to_tag. by rewrite Hsub.
  - unfold assign_field_to_tag. destruct parent_cls as [parent|]; [|done].
    destruct (issubclass sender parent) eqn:Hsub; simpl.
    + unfold issubclass in *. simpl. rewrite Hsub. simpl. f_equal.
      rewrite <- map_fmap_compose. apply map_fmap_ext.
      intros i mb _. apply assign_member_idemp.
    + by rewrite Hsub.
Qed.

(** Late binding, end to end.  For a method declared with the field's
    name: before the class is prepared its wrapper raises
    [AttributeError] without touching the owner; once
    [assign_field_to_tag] has run for a descendant class, the wrapper of
    the bound member is [change_state] of that field. *)
Theorem late_binding_routes_to_field (self : FSMField.t) (parent : string)
    (sender : py_class) (k : string) (m : Method) :
  issubclass sender parent = true →
  cls_members sender !! k = Some (Tagged m) →
  FSMTag.field (_fsm_tag m) = FieldName (FSMField.name self) →
  (∀ a owner,
     run (_change_state m a) owner
     = ({| obj := owner; log := [] |}, Raise AttributeError)) ∧
  ∃ m',
    cls_members (assign_field_to_tag self (Some parent) sender) !! k
    = Some (Tagged m') ∧
    FSMTag.transitions (_fsm_tag m') = FSMTag.transitions (_fsm_tag m) ∧
    ∀ a owner,
      run (_change_state m' a) owner = run (change_state self m' a) owner.
Proof.
  intros Hsub Hk Hfld. split.
  - intros a owner. unfold _change_state. by rewrite Hfld.
  - unfold assign_field_to_tag. rewrite Hsub. simpl.
    rewrite lookup_fmap, Hk. simpl.
    rewrite (proj2 (names_field_true self _) Hfld).
    eexists. split; [reflexivity|]. by split.
Qed.

Lemma assign_field_to_tag_binds_witness :
  ∃ m',
    cls_members (assign_field_to_tag state_field (Some "Article") article)
      !! "publish" = Some (Tagged m') ∧
    __name__ m' = __name__ unbound_publish ∧
    body m' = body unbound_publish ∧
    FSMTag.transitions (_fsm_tag m')
    = FSMTag.transitions (_fsm_tag unbound_publish) ∧
    (FSMTag.field (_fsm_tag unbound_publish)
     = FieldName (FSMField.name state_field) →
     FSMTag.field (_fsm_tag m') = FieldObj state_field) ∧
    (FSMTag.field (_fsm_tag unbound_publish)
     ≠ FieldName (FSMField.name state_field) →
     m' = unbound_publish).
Proof.
  exact (assign_field_to_tag_binds state_field "Article" article "publish"
           eq_refl).
Defined.

Lemma late_binding_routes_to_field_witness :
  (∀ a owner,
     run (_change_state unbound_publish a) owner
     = ({| obj := owner; log := [] |}, Raise AttributeError)) ∧
  ∃ m',
    cls_members (assign_field_to_tag state_field (Some "Article") article)
      !! "publish" = Some (Tagged m') ∧
    FSMTag.transitions (_fsm_tag m')
    = FSMTag.transitions (_fsm_tag unbound_publish) ∧
    ∀ a owner,
      run (_change_state m' a) owner
      = run (change_state state_field m' a) owner.
Proof.
  apply (late_binding_routes_to_field state_field "Article" article
           "publish" unbound_publish); reflexivity.
Defined.
